(** * Eiger hardware interface: acquisition life cycle and composite status

    Shallow embedding of [Interface] from [src/EigerInterface.cpp]: the
    constructor and destructor, [reset], [prepareAcq], [startAcq], [stopAcq]
    and [getStatus].

    The interface owns no logic of its own besides sequencing: every
    statement is a call on a collaborator (camera, saving, stream,
    decompression, ROI).  The collaborators are not part of this file, so
    their behaviour is a parameter, the record [World]:
    - what their accessors answer ([getStatus], [isActive], [getTrigMode],
      ...), read without side effect;
    - which of their operations raise, and with which exception.
    A run of a member function yields its outcome (normal return or an
    exception leaving the function), the final state of the flags the
    interface writes, and the chronological list of calls it made. *)

From Stdlib Require Import List ZArith QArith Bool String.
Import ListNotations.

Local Open Scope string_scope.
Local Open Scope Z_scope.
Local Open Scope list_scope.

(** ** Enumerations used by the interface *)

(** Modelled from the spec: [Camera::Status], whose declaration
    (EigerCamera.h) is not among the sources.  The detector status is one
    of Ready, Exposure, Armed, Fault, Initializing: the five cases of the
    [switch] in [getStatus]. *)
Module Camera.
Inductive Status : Set := Ready | Exposure | Armed | Fault | Initializing.
End Camera.

(** Modelled from the spec: [SavingCtrlObj::Status], whose declaration
    (EigerSavingCtrlObj.h) is not among the sources: Idle, Running, Error.
    [getStatus] names [IDLE] and [RUNNING] and leaves the rest to
    [default]. *)
Module SavingCtrlObj.
Inductive Status : Set := IDLE | RUNNING | ERROR.
End SavingCtrlObj.

(** Modelled from the spec: [HwInterface::StatusType], the composite
    status handed to the host framework, which declares it: Ready,
    Exposure, Readout, Fault, Config. *)
Module HwInterface.
Inductive StatusType : Set := Ready | Exposure | Readout | Fault | Config.
End HwInterface.

(** Modelled from the spec: the trigger modes, declared by the host
    framework.  The source names [IntTrigMult], the internal multi-trigger
    mode, and no other; the remaining constructors are the other modes. *)
Inductive TrigMode : Set :=
| IntTrig | IntTrigMult | ExtTrigSingle | ExtTrigMult
| ExtGate | ExtStartStop | ExtTrigReadout.

Definition TrigMode_eqb (a b : TrigMode) : bool :=
  match a, b with
  | IntTrig, IntTrig | IntTrigMult, IntTrigMult
  | ExtTrigSingle, ExtTrigSingle | ExtTrigMult, ExtTrigMult
  | ExtGate, ExtGate | ExtStartStop, ExtStartStop
  | ExtTrigReadout, ExtTrigReadout => true
  | _, _ => false
  end.

(** Modelled from the spec: the reset levels, declared by the host
    framework; [reset] does not look at its argument. *)
Inductive ResetLevel : Set := SoftReset | HardReset.

(** The sub-objects held by the interface, named after the members
    [m_det_info], [m_roi], [m_sync], [m_saving], [m_event], [m_stream] and
    [m_decompress]. *)
Inductive Obj : Set :=
| Obj_det_info | Obj_roi | Obj_sync | Obj_saving
| Obj_event | Obj_stream | Obj_decompress.

Definition Obj_eqb (a b : Obj) : bool :=
  match a, b with
  | Obj_det_info, Obj_det_info | Obj_roi, Obj_roi | Obj_sync, Obj_sync
  | Obj_saving, Obj_saving | Obj_event, Obj_event
  | Obj_stream, Obj_stream | Obj_decompress, Obj_decompress => true
  | _, _ => false
  end.

(** Entries of [m_cap_list]: one [HwCap] per control object pushed. *)
Inductive HwCap : Set :=
| CapDetInfo | CapRoi | CapSync | CapSaving | CapEvent | CapBuffer
| CapDecompress.

(** ** Calls made on the collaborators *)

Inductive Call : Type :=
| New (o : Obj)
| Delete (o : Obj)
| Roi_hasHwRoiSupport
| Stream_getBufferCtrlObj
| Cam_disarm
| Usleep (usec : Z)
| Cam_deleteMemoryFiles
| Stream_setActive (b : bool)
| Decompress_setActive (b : bool)
| Stream_resetStatistics
| Cam_prepareAcq
| Cam_getSerieId
| Saving_setSerieId (serie_id : Z)
| Stream_waitArmed (timeout : Q)
| Saving_start
| Stream_start
| Cam_startAcq
| Cam_stopAcq
| Saving_stop
| Stream_stop.

(** An exception in flight, identified by its message. *)
Definition Exn : Set := string.

(** ** The collaborators, as seen from the interface *)

Record World : Type := {
  cam_status : Camera.Status;              (* m_cam.getStatus() *)
  cam_trig_mode : TrigMode;                (* m_cam.getTrigMode(..) *)
  cam_nb_frames : Z;                       (* m_cam.getNbFrames(..) *)
  cam_nb_triggered_frames : Z;             (* m_cam.getNbTriggeredFrames(..) *)
  cam_serie_id : Z;                        (* m_cam.getSerieId(..) *)
  saving_active : bool;                    (* m_saving->isActive() *)
  saving_status : SavingCtrlObj.Status;    (* m_saving->getStatus() *)
  stream_running : bool;                   (* m_stream->isRunning() *)
  roi_hw_support : bool;                   (* m_roi->hasHwRoiSupport() *)
  raises : Call -> option Exn              (* the exception a call throws *)
}.

(** What the interface writes: the two activation flags and its own
    capability list. *)
Record State : Type := {
  stream_active : bool;
  decompress_active : bool;
  m_cap_list : list HwCap
}.

(** ** A state, exception and call-log monad *)

Inductive Outcome (A : Type) : Type :=
| Normal (a : A)
| Thrown (e : Exn).
Arguments Normal {A} a.
Arguments Thrown {A} e.

Record Run (A : Type) : Type := {
  outcome : Outcome A;
  final : State;
  calls : list Call
}.
Arguments outcome {A} r.
Arguments final {A} r.
Arguments calls {A} r.

Definition M (A : Type) : Type := State -> Run A.

Definition ret {A} (a : A) : M A :=
  fun s => {| outcome := Normal a; final := s; calls := [] |}.

Definition raise {A} (e : Exn) : M A :=
  fun s => {| outcome := Thrown e; final := s; calls := [] |}.

Definition bind {A B} (m : M A) (k : A -> M B) : M B :=
  fun s =>
    match m s with
    | {| outcome := Normal a; final := s1; calls := c1 |} =>
        match k a s1 with
        | {| outcome := o; final := s2; calls := c2 |} =>
            {| outcome := o; final := s2; calls := c1 ++ c2 |}
        end
    | {| outcome := Thrown e; final := s1; calls := c1 |} =>
        {| outcome := Thrown e; final := s1; calls := c1 |}
    end.

(** [try m catch (...) { h; }]: the handler receives the exception in
    flight, so that [throw;] is [raise e]. *)
Definition try_catch {A} (m : M A) (h : Exn -> M A) : M A :=
  fun s =>
    match m s with
    | {| outcome := Normal a; final := s1; calls := c1 |} =>
        {| outcome := Normal a; final := s1; calls := c1 |}
    | {| outcome := Thrown e; final := s1; calls := c1 |} =>
        match h e s1 with
        | {| outcome := o; final := s2; calls := c2 |} =>
            {| outcome := o; final := s2; calls := c1 ++ c2 |}
        end
    end.

Declare Scope eiger_scope.
Delimit Scope eiger_scope with eiger.
Notation "x <- m ;; k" := (bind m (fun x => k))
  (at level 61, m at next level, right associativity) : eiger_scope.
Notation "m ;; k" := (bind m (fun _ => k))
  (at level 61, right associativity) : eiger_scope.
Local Open Scope eiger_scope.

(** A call that cannot raise: it is only recorded. *)
Definition note (c : Call) : M unit :=
  fun s => {| outcome := Normal tt; final := s; calls := [c] |}.

(** A call on a collaborator: recorded, then it returns or raises as the
    collaborator decides. *)
Definition call (w : World) (c : Call) : M unit :=
  fun s =>
    match raises w c with
    | Some e => {| outcome := Thrown e; final := s; calls := [c] |}
    | None => {| outcome := Normal tt; final := s; calls := [c] |}
    end.

Definition when (b : bool) (m : M unit) : M unit :=
  if b then m else ret tt.

(** Flag setters of the stream and of the decompression task. *)
Definition stream_setActive (b : bool) : M unit :=
  fun s => {| outcome := Normal tt;
              final := {| stream_active := b;
                          decompress_active := decompress_active s;
                          m_cap_list := m_cap_list s |};
              calls := [Stream_setActive b] |}.

Definition decompress_setActive (b : bool) : M unit :=
  fun s => {| outcome := Normal tt;
              final := {| stream_active := stream_active s;
                          decompress_active := b;
                          m_cap_list := m_cap_list s |};
              calls := [Decompress_setActive b] |}.

(** [m_cap_list.push_back(HwCap(..))]. *)
Definition cap_list_push_back (c : HwCap) : M unit :=
  fun s => {| outcome := Normal tt;
              final := {| stream_active := stream_active s;
                          decompress_active := decompress_active s;
                          m_cap_list := m_cap_list s ++ [c] |};
              calls := [] |}.

(** Default construction of the member [m_cap_list]. *)
Definition cap_list_init : M unit :=
  fun s => {| outcome := Normal tt;
              final := {| stream_active := stream_active s;
                          decompress_active := decompress_active s;
                          m_cap_list := [] |};
              calls := [] |}.

Definition roi_hasHwRoiSupport (w : World) : M bool :=
  note Roi_hasHwRoiSupport ;; ret (roi_hw_support w).

Definition cam_getSerieId (w : World) : M Z :=
  call w Cam_getSerieId ;; ret (cam_serie_id w).

Definition Camera_Status_eqb (a b : Camera.Status) : bool :=
  match a, b with
  | Camera.Ready, Camera.Ready | Camera.Exposure, Camera.Exposure
  | Camera.Armed, Camera.Armed | Camera.Fault, Camera.Fault
  | Camera.Initializing, Camera.Initializing => true
  | _, _ => false
  end.

(** ** The interface *)

(** [Interface::Interface]. *)
Definition Interface_ctor (w : World) : M unit :=
  cap_list_init ;;
  call w (New Obj_det_info) ;;
  cap_list_push_back CapDetInfo ;;
  call w (New Obj_roi) ;;
  has_roi <- roi_hasHwRoiSupport w ;;
  when has_roi (cap_list_push_back CapRoi) ;;
  call w (New Obj_sync) ;;
  cap_list_push_back CapSync ;;
  call w (New Obj_saving) ;;
  cap_list_push_back CapSaving ;;
  call w (New Obj_event) ;;
  cap_list_push_back CapEvent ;;
  call w (New Obj_stream) ;;
  note Stream_getBufferCtrlObj ;;
  cap_list_push_back CapBuffer ;;
  call w (New Obj_decompress) ;;
  cap_list_push_back CapDecompress.

(** [Interface::~Interface]. *)
Definition Interface_dtor : M unit :=
  note (Delete Obj_det_info) ;;
  note (Delete Obj_roi) ;;
  note (Delete Obj_sync) ;;
  note (Delete Obj_saving) ;;
  note (Delete Obj_stream) ;;
  note (Delete Obj_decompress).

(** [usleep(2e6)]: two million microseconds. *)
Definition finalize_guard_usec : Z := 2000000.

(** [double stream_armed_timeout = 5.0]. *)
Definition stream_armed_timeout : Q := 5 # 1.

(** The body of the [try] block of [prepareAcq]. *)
Definition prepareAcq_try (w : World) (use_filewriter : bool) : M unit :=
  call w Cam_prepareAcq ;;
  serie_id <- cam_getSerieId w ;;
  call w (Saving_setSerieId serie_id) ;;
  when (negb use_filewriter)
       (call w (Stream_waitArmed stream_armed_timeout)).

(** The [catch (...)] handler of [prepareAcq]. *)
Definition prepareAcq_catch (w : World) (e : Exn) : M unit :=
  call w Saving_stop ;;
  call w Stream_stop ;;
  raise e.

(** [Interface::prepareAcq]. *)
Definition prepareAcq (w : World) : M unit :=
  let use_filewriter := saving_active w in
  when (Camera_Status_eqb (cam_status w) Camera.Armed)
       (call w Cam_disarm ;;
        when use_filewriter (note (Usleep finalize_guard_usec))) ;;
  when use_filewriter (call w Cam_deleteMemoryFiles) ;;
  stream_setActive (negb use_filewriter) ;;
  decompress_setActive (negb use_filewriter) ;;
  call w Stream_resetStatistics ;;
  try_catch (prepareAcq_try w use_filewriter) (prepareAcq_catch w).

(** [Interface::startAcq]. *)
Definition startAcq (w : World) : M unit :=
  let trig_mode := cam_trig_mode w in
  let nb_trig_frames := cam_nb_triggered_frames w in
  when (negb (TrigMode_eqb trig_mode IntTrigMult) || (nb_trig_frames =? 0))
       (if saving_active w then call w Saving_start
        else call w Stream_start) ;;
  call w Cam_startAcq.

(** [Interface::stopAcq]. *)
Definition stopAcq (w : World) : M unit :=
  call w Cam_stopAcq ;;
  call w Saving_stop ;;
  call w Stream_stop.

(** [Interface::reset]. *)
Definition reset (reset_level : ResetLevel) (w : World) : M unit :=
  stopAcq w.

(** [Interface::getStatus]: the value left in the out-parameter. *)
Definition getStatus (w : World) : HwInterface.StatusType :=
  match cam_status w with
  | Camera.Ready =>
      let mult_trig_in_progress :=
        if TrigMode_eqb (cam_trig_mode w) IntTrigMult
        then negb (cam_nb_triggered_frames w =? cam_nb_frames w)
        else false in
      if mult_trig_in_progress then HwInterface.Ready
      else if saving_active w then
        match saving_status w with
        | SavingCtrlObj.IDLE => HwInterface.Ready
        | SavingCtrlObj.RUNNING => HwInterface.Readout
        | _ => HwInterface.Fault
        end
      else if stream_running w then HwInterface.Readout
      else HwInterface.Ready
  | Camera.Exposure => HwInterface.Exposure
  | Camera.Armed => HwInterface.Ready
  | Camera.Fault => HwInterface.Fault
  | Camera.Initializing => HwInterface.Config
  end.

(** ** The decision table of the specification

    The table is kept as data: rows are tried from the top and the first
    row whose condition holds gives the composite status. *)

Definition multi_trigger_in_progress (w : World) : bool :=
  TrigMode_eqb (cam_trig_mode w) IntTrigMult
  && negb (cam_nb_triggered_frames w =? cam_nb_frames w).

Definition SavingStatus_eqb (a b : SavingCtrlObj.Status) : bool :=
  match a, b with
  | SavingCtrlObj.IDLE, SavingCtrlObj.IDLE
  | SavingCtrlObj.RUNNING, SavingCtrlObj.RUNNING
  | SavingCtrlObj.ERROR, SavingCtrlObj.ERROR => true
  | _, _ => false
  end.

Definition DecisionRow : Type := (World -> bool) * HwInterface.StatusType.

Definition ready_settled (w : World) : bool :=
  Camera_Status_eqb (cam_status w) Camera.Ready
  && negb (multi_trigger_in_progress w).

Definition decision_table : list DecisionRow :=
  [ (fun w => Camera_Status_eqb (cam_status w) Camera.Exposure,
     HwInterface.Exposure);
    (fun w => Camera_Status_eqb (cam_status w) Camera.Armed,
     HwInterface.Ready);
    (fun w => Camera_Status_eqb (cam_status w) Camera.Fault,
     HwInterface.Fault);
    (fun w => Camera_Status_eqb (cam_status w) Camera.Initializing,
     HwInterface.Config);
    (fun w => Camera_Status_eqb (cam_status w) Camera.Ready
              && multi_trigger_in_progress w,
     HwInterface.Ready);
    (fun w => ready_settled w && saving_active w
              && SavingStatus_eqb (saving_status w) SavingCtrlObj.IDLE,
     HwInterface.Ready);
    (fun w => ready_settled w && saving_active w
              && SavingStatus_eqb (saving_status w) SavingCtrlObj.RUNNING,
     HwInterface.Readout);
    (fun w => ready_settled w && saving_active w,
     HwInterface.Fault);
    (fun w => ready_settled w && negb (saving_active w) && stream_running w,
     HwInterface.Readout);
    (fun w => ready_settled w && negb (saving_active w)
              && negb (stream_running w),
     HwInterface.Ready) ].

Fixpoint table_lookup (rows : list DecisionRow) (w : World)
  : option HwInterface.StatusType :=
  match rows with
  | [] => None
  | (cond, st) :: rows' => if cond w then Some st else table_lookup rows' w
  end.

(** ** Vocabulary for the statements *)

(** None of the calls in [cs] raises in [w]. *)
Definition quiet (w : World) (cs : list Call) : Prop :=
  forall c, In c cs -> raises w c = None.

(** The gate of [startAcq]: this is the first call of the sequence. *)
Definition first_call (w : World) : Prop :=
  cam_trig_mode w <> IntTrigMult \/ cam_nb_triggered_frames w = 0.

Definition is_data_start (c : Call) : bool :=
  match c with
  | Saving_start | Stream_start => true
  | _ => false
  end.

Definition is_usleep (c : Call) : bool :=
  match c with
  | Usleep _ => true
  | _ => false
  end.

Definition is_roi_probe (c : Call) : bool :=
  match c with
  | Roi_hasHwRoiSupport => true
  | _ => false
  end.

(** No [usleep] is issued once the detector storage has been cleared. *)
Fixpoint no_sleep_after_clear (l : list Call) : bool :=
  match l with
  | [] => true
  | Cam_deleteMemoryFiles :: l' => negb (existsb is_usleep l')
  | _ :: l' => no_sleep_after_clear l'
  end.

(** The objects created, and the objects destroyed, in order. *)
Definition created (l : list Call) : list Obj :=
  flat_map (fun c => match c with New o => [o] | _ => [] end) l.

Definition destroyed (l : list Call) : list Obj :=
  flat_map (fun c => match c with Delete o => [o] | _ => [] end) l.

Definition count_obj (o : Obj) (l : list Obj) : nat :=
  List.length (filter (Obj_eqb o) l).

(** The exception reaching the caller when one of the three steps of the
    [try] block raises [e]: the camera-level prepare, the propagation of
    the serie id, or the wait for the stream to be armed. *)
Inductive delegation_raises (w : World) (e : Exn) : Prop :=
| raises_in_prepare :
    raises w Cam_prepareAcq = Some e -> delegation_raises w e
| raises_in_getSerieId :
    raises w Cam_prepareAcq = None ->
    raises w Cam_getSerieId = Some e -> delegation_raises w e
| raises_in_setSerieId :
    raises w Cam_prepareAcq = None ->
    raises w Cam_getSerieId = None ->
    raises w (Saving_setSerieId (cam_serie_id w)) = Some e ->
    delegation_raises w e
| raises_in_waitArmed :
    raises w Cam_prepareAcq = None ->
    raises w Cam_getSerieId = None ->
    raises w (Saving_setSerieId (cam_serie_id w)) = None ->
    saving_active w = false ->
    raises w (Stream_waitArmed stream_armed_timeout) = Some e ->
    delegation_raises w e.

(** The three stop calls of [stopAcq], in program order. *)
Definition stop_calls : list Call := [Cam_stopAcq; Saving_stop; Stream_stop].

(** [stopAcq] read as a best-effort stop: all three stop calls are issued,
    in order, whatever any of them does. *)
Definition stops_never_skipped (w : World) (s : State) : Prop :=
  calls (stopAcq w s) = stop_calls.

(** The calls of [prepareAcq] that precede its [try] block. *)
Definition before_try : list Call :=
  [Cam_disarm; Cam_deleteMemoryFiles; Stream_resetStatistics].

(** The calls of the [try] block that precede the wait for the stream. *)
Definition before_wait (w : World) : list Call :=
  [Cam_prepareAcq; Cam_getSerieId; Saving_setSerieId (cam_serie_id w)].

(** The rollback of [prepareAcq]: its last two calls stop the saving and
    then the stream, and the exception [e] reaches the caller. *)
Definition rollback_then_rethrow (w : World) (s : State) (e : Exn) : Prop :=
  let r := prepareAcq w s in
  outcome r = Thrown e
  /\ exists pre, calls r = pre ++ [Saving_stop; Stream_stop].

(** The sub-objects in the order in which the constructor creates them. *)
Definition all_objs : list Obj :=
  [Obj_det_info; Obj_roi; Obj_sync; Obj_saving; Obj_event; Obj_stream;
   Obj_decompress].

Definition not_event (o : Obj) : bool := negb (Obj_eqb o Obj_event).

(** Destruction read as the mirror image of construction: every object
    created is destroyed, the last created first. *)
Definition destroys_all_in_reverse (w : World) (s s' : State) : Prop :=
  destroyed (calls (Interface_dtor s'))
  = rev (created (calls (Interface_ctor w s))).

(** ** Concrete collaborators, for the examples *)

Definition no_raise : Call -> option Exn := fun _ => None.

Definition state0 : State :=
  {| stream_active := false; decompress_active := false; m_cap_list := [] |}.

Definition mk_world (st : Camera.Status) (saving : bool)
    (r : Call -> option Exn) : World :=
  {| cam_status := st; cam_trig_mode := IntTrig;
     cam_nb_frames := 1; cam_nb_triggered_frames := 0; cam_serie_id := 7;
     saving_active := saving; saving_status := SavingCtrlObj.IDLE;
     stream_running := false; roi_hw_support := true; raises := r |}.

(** The camera refuses the stop command (for instance, the detector is
    unreachable). *)
Definition cam_stop_fails : Call -> option Exn :=
  fun c => match c with
           | Cam_stopAcq => Some "camera stop failed"
           | _ => None
           end.

(** The camera-level prepare fails and, during the rollback, so does the
    stop of the saving. *)
Definition prepare_and_saving_stop_fail : Call -> option Exn :=
  fun c => match c with
           | Cam_prepareAcq => Some "prepare failed"
           | Saving_stop => Some "saving stop failed"
           | _ => None
           end.

(** The camera-level prepare fails and, during the rollback, the saving
    is stopped but the stop of the stream fails. *)
Definition prepare_and_stream_stop_fail : Call -> option Exn :=
  fun c => match c with
           | Cam_prepareAcq => Some "prepare failed"
           | Stream_stop => Some "stream stop failed"
           | _ => None
           end.

(** The stream is not armed within the timeout. *)
Definition wait_armed_times_out : Call -> option Exn :=
  fun c => match c with
           | Stream_waitArmed _ => Some "stream not armed"
           | _ => None
           end.

(** ** Further members, and the life of an interface *)

(** [Interface::getCapList]: the out-parameter receives a copy of
    [m_cap_list]. *)
Definition getCapList : M (list HwCap) :=
  fun s => {| outcome := Normal (m_cap_list s); final := s; calls := [] |}.

(** [Interface::hasHwRoiSupport]. *)
Definition hasHwRoiSupport (w : World) : M bool :=
  roi_hasHwRoiSupport w.

(** The members the host framework drives an acquisition with. *)
Inductive Member : Set :=
| Member_reset (reset_level : ResetLevel)
| Member_prepareAcq
| Member_startAcq
| Member_stopAcq.

Definition run_member (w : World) (m : Member) : M unit :=
  match m with
  | Member_reset reset_level => reset reset_level w
  | Member_prepareAcq => prepareAcq w
  | Member_startAcq => startAcq w
  | Member_stopAcq => stopAcq w
  end.

(** The state left by a succession of member calls, each one made while
    the collaborators are as its [World] says, whether the call returns or
    raises. *)
Fixpoint state_after (l : list (World * Member)) (s : State) : State :=
  match l with
  | [] => s
  | (w, m) :: l' => state_after l' (final (run_member w m s))
  end.

Definition is_prepareAcq (m : Member) : bool :=
  match m with
  | Member_prepareAcq => true
  | _ => false
  end.

(** [prepareAcq] is left by the exception [e] of the disarm or of the
    clearing of the detector storage. *)
Inductive safety_sequence_raises (w : World) (e : Exn) : Prop :=
| raises_in_disarm :
    cam_status w = Camera.Armed ->
    raises w Cam_disarm = Some e -> safety_sequence_raises w e
| raises_in_deleteMemoryFiles :
    (cam_status w = Camera.Armed -> raises w Cam_disarm = None) ->
    saving_active w = true ->
    raises w Cam_deleteMemoryFiles = Some e -> safety_sequence_raises w e.

(** The disarm and the clearing of the storage return, where they are
    called at all. *)
Definition safety_sequence_returns (w : World) : Prop :=
  (cam_status w = Camera.Armed -> raises w Cam_disarm = None)
  /\ (saving_active w = true -> raises w Cam_deleteMemoryFiles = None).

(** The data-retrieval subsystem that [startAcq] starts. *)
Definition data_start (w : World) : Call :=
  if saving_active w then Saving_start else Stream_start.

Definition is_delete (c : Call) : bool :=
  match c with
  | Delete _ => true
  | _ => false
  end.

(** The constructor of the stream fails, the objects before it do not. *)
Definition stream_ctor_fails : Call -> option Exn :=
  fun c => match c with
           | New Obj_stream => Some "cannot map the stream buffer"
           | _ => None
           end.

(** The detector cannot be disarmed. *)
Definition disarm_fails : Call -> option Exn :=
  fun c => match c with
           | Cam_disarm => Some "disarm failed"
           | _ => None
           end.

(** The stream statistics cannot be reset. *)
Definition resetStatistics_fails : Call -> option Exn :=
  fun c => match c with
           | Stream_resetStatistics => Some "reset statistics failed"
           | _ => None
           end.

(** The saving cannot be started. *)
Definition saving_start_fails : Call -> option Exn :=
  fun c => match c with
           | Saving_start => Some "saving start failed"
           | _ => None
           end.

(** * Properties *)

(** ** Reasoning about runs *)

Lemma quiet_cons (w : World) (c : Call) (cs : list Call) :
  quiet w (c :: cs) <-> raises w c = None /\ quiet w cs.
Proof.
  unfold quiet; split.
  - intros H; split; [apply H; left; reflexivity|].
    intros c' Hc'; apply H; right; exact Hc'.
  - intros [Hc Hcs] c' [<- | Hin]; [exact Hc | apply Hcs; exact Hin].
Qed.

(** Expose the calls of a member function down to the collaborators'
    answers. *)
Ltac expose :=
  cbv [prepareAcq prepareAcq_try prepareAcq_catch startAcq stopAcq reset
       Interface_ctor Interface_dtor cam_getSerieId roi_hasHwRoiSupport
       call when try_catch bind note ret raise stream_setActive
       decompress_setActive cap_list_push_back cap_list_init
       outcome final calls].

Ltac split_quiet :=
  repeat match goal with
         | H : quiet _ (_ :: _) |- _ =>
             apply quiet_cons in H; destruct H as [? H]
         | H : quiet _ [] |- _ => clear H
         end.

(** Follow the run: use what is known about a call, else split on it. *)
Ltac follow :=
  repeat (simpl;
          match goal with
          | H : raises ?w ?c = _ |- context [raises ?w ?c] => rewrite H
          | |- context [match raises ?w ?c with _ => _ end] =>
              destruct (raises w c) eqn:?
          end); simpl.

Lemma first_call_gate (w : World) :
  negb (TrigMode_eqb (cam_trig_mode w) IntTrigMult)
  || (cam_nb_triggered_frames w =? 0) = true <-> first_call w.
Proof.
  unfold first_call.
  destruct (Z.eqb_spec (cam_nb_triggered_frames w) 0) as [E | E].
  - rewrite orb_true_r; split; auto.
  - rewrite orb_false_r.
    destruct (cam_trig_mode w); simpl; split;
      intros H; try discriminate; try (left; discriminate); auto;
      destruct H as [H | H]; congruence.
Qed.

Lemma usleep_in_existsb (usec : Z) (l : list Call) :
  In (Usleep usec) l -> existsb is_usleep l = true.
Proof.
  intros Hin; apply existsb_exists; exists (Usleep usec); split;
    [exact Hin | reflexivity].
Qed.

Lemma no_sleep_after_clear_sound (l : list Call) :
  no_sleep_after_clear l = true ->
  forall pre post, l = pre ++ Cam_deleteMemoryFiles :: post ->
  forall usec, ~ In (Usleep usec) post.
Proof.
  induction l as [| c l IH]; intros Hchk pre post Heq usec Hin.
  - destruct pre; discriminate.
  - destruct pre as [| c' pre]; simpl in Heq; injection Heq as -> ->.
    + simpl in Hchk; apply negb_true_iff in Hchk.
      rewrite (usleep_in_existsb usec post Hin) in Hchk; discriminate.
    + assert (In (Usleep usec) (pre ++ Cam_deleteMemoryFiles :: post))
        as Hin' by (apply in_or_app; right; right; exact Hin).
      destruct c'; simpl in Hchk;
        try (exact (IH Hchk pre post eq_refl usec Hin)).
      apply negb_true_iff in Hchk.
      rewrite (usleep_in_existsb usec _ Hin') in Hchk; discriminate.
Qed.

(** ** Composite status *)

(** C1. For every combination of sub-component states, the status left by
    [getStatus] is the one the decision table of the specification gives,
    its rows being tried from the top. *)
Theorem getStatus_decision_table (w : World) :
  table_lookup decision_table w = Some (getStatus w).
Proof.
  unfold getStatus, decision_table, table_lookup, ready_settled,
    multi_trigger_in_progress.
  destruct (cam_status w), (cam_trig_mode w), (saving_active w),
    (saving_status w), (stream_running w); simpl; try reflexivity;
    destruct (cam_nb_triggered_frames w =? cam_nb_frames w); reflexivity.
Qed.

(** ** Starting an acquisition *)

(** C2. For every trigger mode and triggered-frame count, [startAcq] starts
    a data-retrieval subsystem exactly when the trigger mode is not the
    internal multi-trigger or no frame has been triggered yet; it then
    starts the saving when the saving is active and the stream otherwise,
    never both; and the camera-level start is the last call, once, whatever
    the gate decided. *)
Theorem startAcq_gating (w : World) (s : State) :
  let tr := calls (startAcq w s) in
  ((In Saving_start tr \/ In Stream_start tr) <-> first_call w)
  /\ (first_call w ->
      filter is_data_start tr =
        [if saving_active w then Saving_start else Stream_start])
  /\ ~ (In Saving_start tr /\ In Stream_start tr)
  /\ (quiet w [Saving_start; Stream_start] ->
      exists pre, tr = pre ++ [Cam_startAcq] /\ ~ In Cam_startAcq pre).
Proof.
  pose proof (first_call_gate w) as Hgate.
  expose.
  destruct (negb (TrigMode_eqb (cam_trig_mode w) IntTrigMult)
            || (cam_nb_triggered_frames w =? 0)) eqn:G.
  - assert (first_call w) as Hfc by (apply Hgate; reflexivity).
    destruct (saving_active w); follow; repeat split; intros; split_quiet;
      try (exact Hfc); try reflexivity; try congruence;
      try (simpl in *; intuition discriminate);
      try (eexists [_]; split; [reflexivity | simpl; intuition discriminate]).
  - assert (~ first_call w) as Hfc
        by (intros H; apply Hgate in H; discriminate).
    follow; repeat split; intros; split_quiet;
      try contradiction; try (simpl in *; intuition discriminate);
      try (exists []; split; [reflexivity | simpl; tauto]).
Qed.

Lemma startAcq_gating_witness :
  exists pre,
    calls (startAcq (mk_world Camera.Ready true no_raise) state0)
    = pre ++ [Cam_startAcq] /\ ~ In Cam_startAcq pre.
Proof.
  apply (startAcq_gating (mk_world Camera.Ready true no_raise) state0).
  intros c _; reflexivity.
Defined.

(** ** Preparing an acquisition: the two activation flags *)

(** C3. After a call to [prepareAcq], whatever the saving-activation flag,
    the active flag of the stream and the active flag of the decompression
    are both the negation of the saving-activation flag read at the start
    of the call (the flags are written after the disarm and the clearing of
    the storage, which are taken to return).  In every run the two setters
    are called with the same value, and flags that agreed before the call
    agree after it. *)
Theorem prepareAcq_flags (w : World) (s : State) :
  let r := prepareAcq w s in
  (quiet w [Cam_disarm; Cam_deleteMemoryFiles] ->
   stream_active (final r) = negb (saving_active w)
   /\ decompress_active (final r) = negb (saving_active w))
  /\ (forall b, In (Stream_setActive b) (calls r) <->
                In (Decompress_setActive b) (calls r))
  /\ (forall b, In (Stream_setActive b) (calls r) ->
                b = negb (saving_active w))
  /\ (stream_active s = decompress_active s ->
      stream_active (final r) = decompress_active (final r)).
Proof.
  cbv zeta; split; [| split; [| split]].
  - intros Hq; split_quiet; expose.
    destruct (cam_status w), (saving_active w); follow; auto.
  - intros b; expose.
    destruct (cam_status w), (saving_active w); follow; simpl;
      intuition (try discriminate; try congruence).
  - intros b; expose.
    destruct (cam_status w), (saving_active w); follow; simpl;
      intuition (try discriminate; try congruence).
  - intros Hs; expose.
    destruct (cam_status w), (saving_active w); follow; auto.
Qed.

Lemma prepareAcq_flags_witness :
  let r := prepareAcq (mk_world Camera.Armed true no_raise) state0 in
  stream_active (final r) = false /\ decompress_active (final r) = false.
Proof.
  apply (prepareAcq_flags (mk_world Camera.Armed true no_raise) state0).
  intros c _; reflexivity.
Defined.

(** ** Stopping an acquisition *)

Lemma stopAcq_all_return (w : World) (s : State) :
  quiet w stop_calls ->
  calls (stopAcq w s) = stop_calls /\ outcome (stopAcq w s) = Normal tt.
Proof.
  unfold stop_calls; intros Hq; split_quiet; expose; follow; auto.
Qed.

(** C4, as stated, fails: when the camera refuses the stop command, the
    exception leaves [stopAcq] at once and neither the saving nor the
    stream is stopped. *)
Lemma stopAcq_skips_after_failure :
  let w := mk_world Camera.Ready true cam_stop_fails in
  outcome (stopAcq w state0) = Thrown "camera stop failed"
  /\ calls (stopAcq w state0) = [Cam_stopAcq]
  /\ ~ stops_never_skipped w state0.
Proof.
  repeat split; intros H; discriminate H.
Qed.

(** C4, amended. [stopAcq] stops the camera, then the saving, then the
    stream, and returns, when each stop call returns.  The stop calls are
    not guarded: the first one that raises ends [stopAcq] with its
    exception, and the stop calls after it are not made. *)
Theorem stopAcq_sequence (w : World) (s : State) :
  let r := stopAcq w s in
  (quiet w stop_calls ->
   calls r = [Cam_stopAcq; Saving_stop; Stream_stop]
   /\ outcome r = Normal tt)
  /\ (forall e, raises w Cam_stopAcq = Some e ->
      calls r = [Cam_stopAcq] /\ outcome r = Thrown e)
  /\ (forall e, raises w Cam_stopAcq = None ->
      raises w Saving_stop = Some e ->
      calls r = [Cam_stopAcq; Saving_stop] /\ outcome r = Thrown e)
  /\ (forall e, raises w Cam_stopAcq = None ->
      raises w Saving_stop = None ->
      raises w Stream_stop = Some e ->
      calls r = [Cam_stopAcq; Saving_stop; Stream_stop]
      /\ outcome r = Thrown e).
Proof.
  cbv zeta; split; [apply stopAcq_all_return |].
  repeat split; intros; expose; follow; auto.
Qed.

Lemma stopAcq_sequence_witness :
  let r := stopAcq (mk_world Camera.Ready true no_raise) state0 in
  calls r = [Cam_stopAcq; Saving_stop; Stream_stop]
  /\ outcome r = Normal tt.
Proof.
  apply (stopAcq_sequence (mk_world Camera.Ready true no_raise) state0).
  intros c _; reflexivity.
Defined.

(** C10. For every reset level, [reset] does what [stopAcq] does: the two
    runs are equal, so the camera, then the saving, then the stream are
    stopped; and the reset level plays no part. *)
Theorem reset_is_stopAcq (reset_level : ResetLevel) (w : World) (s : State) :
  reset reset_level w s = stopAcq w s
  /\ (forall reset_level', reset reset_level' w s = reset reset_level w s)
  /\ (quiet w stop_calls ->
      calls (reset reset_level w s) = [Cam_stopAcq; Saving_stop; Stream_stop]
      /\ outcome (reset reset_level w s) = Normal tt).
Proof.
  repeat split; try reflexivity; apply stopAcq_all_return; assumption.
Qed.

Lemma reset_is_stopAcq_witness :
  calls (reset HardReset (mk_world Camera.Exposure false no_raise) state0)
  = [Cam_stopAcq; Saving_stop; Stream_stop]
  /\ outcome (reset HardReset (mk_world Camera.Exposure false no_raise) state0)
     = Normal tt.
Proof.
  apply (reset_is_stopAcq HardReset
           (mk_world Camera.Exposure false no_raise) state0).
  intros c _; reflexivity.
Defined.

(** ** Preparing an acquisition: rollback, guard delay, stream arming *)

(** [delegation_raises] says no more and no less than: the [try] block
    ends with the exception [e]. *)
Lemma delegation_raises_iff (w : World) (s : State) (e : Exn) :
  delegation_raises w e <->
  outcome (prepareAcq_try w (saving_active w) s) = Thrown e.
Proof.
  split.
  - intros He; destruct He; expose;
      destruct (saving_active w) eqn:?; try discriminate; follow;
      reflexivity.
  - expose; destruct (saving_active w) eqn:Hsav; follow; intros H;
      try discriminate; injection H as <-.
    all: first [ apply raises_in_prepare; assumption
               | apply raises_in_getSerieId; assumption
               | apply raises_in_setSerieId; assumption
               | apply raises_in_waitArmed; assumption ].
Qed.

Lemma delegation_raises_prepare_fail (st : Camera.Status) (b : bool) :
  delegation_raises (mk_world st b prepare_and_saving_stop_fail)
                    "prepare failed".
Proof. apply raises_in_prepare; reflexivity. Qed.

Lemma quiet_before_try_prepare_fail (st : Camera.Status) (b : bool) :
  quiet (mk_world st b prepare_and_saving_stop_fail) before_try.
Proof.
  intros c [<- | [<- | [<- | []]]]; reflexivity.
Qed.

(** C5, as stated, fails: the camera-level prepare raises and, in the
    handler, the stop of the saving raises in turn.  The second exception
    is the one the caller receives, and the stream is never stopped. *)
Lemma prepareAcq_rollback_masks_failure :
  let w := mk_world Camera.Ready false prepare_and_saving_stop_fail in
  quiet w before_try
  /\ delegation_raises w "prepare failed"
  /\ outcome (prepareAcq w state0) = Thrown "saving stop failed"
  /\ ~ In Stream_stop (calls (prepareAcq w state0))
  /\ ~ rollback_then_rethrow w state0 "prepare failed".
Proof.
  cbv zeta; split; [apply quiet_before_try_prepare_fail |].
  split; [apply delegation_raises_prepare_fail |].
  split; [reflexivity |].
  split.
  - simpl; intuition discriminate.
  - intros [H _]; discriminate H.
Qed.

(** C5, amended. If the camera-level prepare, the propagation of the serie
    id or the wait for the stream raises, and the two stop calls of the
    handler return, then [prepareAcq] ends by stopping the saving and then
    the stream, and the caller receives that same exception.  The stop
    calls of the handler are not guarded: when the stop of the saving
    raises, its exception is the one the caller receives and the stream is
    not stopped; when the stop of the saving returns and the stop of the
    stream raises, the caller receives the exception of the latter. *)
Theorem prepareAcq_rollback (w : World) (s : State) (e : Exn) :
  quiet w before_try ->
  delegation_raises w e ->
  let r := prepareAcq w s in
  (quiet w [Saving_stop; Stream_stop] -> rollback_then_rethrow w s e)
  /\ (forall e', raises w Saving_stop = Some e' ->
      outcome r = Thrown e'
      /\ (exists pre, calls r = pre ++ [Saving_stop])
      /\ ~ In Stream_stop (calls r))
  /\ (forall e', raises w Saving_stop = None ->
      raises w Stream_stop = Some e' ->
      outcome r = Thrown e'
      /\ exists pre, calls r = pre ++ [Saving_stop; Stream_stop]).
Proof.
  unfold before_try, rollback_then_rethrow; intros Hq He.
  split_quiet; cbv zeta; split; [| split].
  - intros Hstop; split_quiet.
    destruct He; expose;
      destruct (cam_status w), (saving_active w) eqn:?; try discriminate;
      follow; (split; [reflexivity |]);
      match goal with
      | |- exists pre, ?l = _ => exists (removelast (removelast l))
      end; reflexivity.
  - intros e' Hsav.
    destruct He; expose;
      destruct (cam_status w), (saving_active w) eqn:?; try discriminate;
      follow; (split; [reflexivity |]);
      (split; [| simpl; intuition discriminate]);
      match goal with
      | |- exists pre, ?l = _ => exists (removelast l)
      end; reflexivity.
  - intros e' Hsav Hstream.
    destruct He; expose;
      destruct (cam_status w), (saving_active w) eqn:?; try discriminate;
      follow; (split; [reflexivity |]);
      match goal with
      | |- exists pre, ?l = _ => exists (removelast (removelast l))
      end; reflexivity.
Qed.

Lemma prepareAcq_rollback_witness :
  rollback_then_rethrow (mk_world Camera.Ready false wait_armed_times_out)
                        state0 "stream not armed"
  /\ outcome (prepareAcq (mk_world Camera.Ready false
                                    prepare_and_stream_stop_fail) state0)
     = Thrown "stream stop failed".
Proof.
  split.
  - destruct (prepareAcq_rollback
                (mk_world Camera.Ready false wait_armed_times_out) state0
                "stream not armed") as (Hreturn & _ & _).
    + intros c [<- | [<- | [<- | []]]]; reflexivity.
    + apply raises_in_waitArmed; reflexivity.
    + apply Hreturn; intros c [<- | [<- | []]]; reflexivity.
  - destruct (prepareAcq_rollback
                (mk_world Camera.Ready false prepare_and_stream_stop_fail)
                state0 "prepare failed") as (_ & _ & Hstream).
    + intros c [<- | [<- | [<- | []]]]; reflexivity.
    + apply raises_in_prepare; reflexivity.
    + apply (Hstream "stream stop failed"); reflexivity.
Defined.

Lemma prepareAcq_no_sleep_after_clear (w : World) (s : State) :
  no_sleep_after_clear (calls (prepareAcq w s)) = true.
Proof.
  expose; destruct (cam_status w), (saving_active w); follow; reflexivity.
Qed.

(** C6. In [prepareAcq], when the detector reports Armed and the saving is
    in use, the disarm is the first call, the guard delay of two seconds
    the second and the clearing of the detector storage the third.  No
    delay ever follows the clearing, and a disarm or a delay is issued only
    when the detector was Armed (the delay, only with the saving in use). *)
Theorem prepareAcq_finalize_guard (w : World) (s : State) :
  let tr := calls (prepareAcq w s) in
  (cam_status w = Camera.Armed -> saving_active w = true ->
   raises w Cam_disarm = None ->
   exists rest,
     tr = Cam_disarm :: Usleep 2000000 :: Cam_deleteMemoryFiles :: rest)
  /\ (forall pre post, tr = pre ++ Cam_deleteMemoryFiles :: post ->
      forall usec, ~ In (Usleep usec) post)
  /\ (In Cam_disarm tr -> cam_status w = Camera.Armed)
  /\ (forall usec, In (Usleep usec) tr ->
      cam_status w = Camera.Armed /\ saving_active w = true
      /\ usec = 2000000).
Proof.
  cbv zeta; split; [| split].
  - intros Hst Hsav Hdis; expose; rewrite Hst, Hsav; follow;
      eexists; reflexivity.
  - apply no_sleep_after_clear_sound, prepareAcq_no_sleep_after_clear.
  - expose; unfold finalize_guard_usec.
    destruct (cam_status w), (saving_active w); follow; split; intros;
      simpl in *; intuition (try discriminate; try congruence).
Qed.

Lemma prepareAcq_finalize_guard_witness :
  exists rest,
    calls (prepareAcq (mk_world Camera.Armed true no_raise) state0)
    = Cam_disarm :: Usleep 2000000 :: Cam_deleteMemoryFiles :: rest.
Proof.
  apply (prepareAcq_finalize_guard
           (mk_world Camera.Armed true no_raise) state0); reflexivity.
Defined.

Lemma prepareAcq_waitArmed_only_streaming (w : World) (s : State) (t : Q) :
  In (Stream_waitArmed t) (calls (prepareAcq w s)) ->
  saving_active w = false /\ t = stream_armed_timeout.
Proof.
  expose; destruct (cam_status w), (saving_active w); follow; intros;
    simpl in *; intuition (try discriminate; try congruence).
Qed.

(** C7. [prepareAcq] waits for the stream to be armed exactly when the
    saving is not in use, that is on the live-stream path, and always with
    a timeout of 5.0 seconds.  When the wait raises, so does [prepareAcq];
    the exception is the one of the wait when the two stop calls of the
    handler return.  The calls that precede the wait are taken to
    return. *)
Theorem prepareAcq_waitArmed (w : World) (s : State) :
  let r := prepareAcq w s in
  (forall t, In (Stream_waitArmed t) (calls r) ->
   saving_active w = false /\ t = (5 # 1)%Q)
  /\ (quiet w (before_try ++ before_wait w) ->
      (In (Stream_waitArmed (5 # 1)%Q) (calls r) <-> saving_active w = false)
      /\ (forall e, saving_active w = false ->
          raises w (Stream_waitArmed (5 # 1)%Q) = Some e ->
          (exists e', outcome r = Thrown e')
          /\ (quiet w [Saving_stop; Stream_stop] -> outcome r = Thrown e))).
Proof.
  cbv zeta; split; [apply prepareAcq_waitArmed_only_streaming |].
  unfold before_try, before_wait; simpl app; intros Hq; split_quiet; split.
  - split; [apply prepareAcq_waitArmed_only_streaming |].
    intros Hsav; expose; rewrite Hsav.
    destruct (cam_status w); follow; simpl; tauto.
  - intros e Hsav He; fold stream_armed_timeout in He; split.
    + expose; rewrite Hsav.
      destruct (cam_status w); follow; eexists; reflexivity.
    + intros Hstop; split_quiet; expose; rewrite Hsav.
      destruct (cam_status w); follow; reflexivity.
Qed.

Lemma prepareAcq_waitArmed_witness :
  let w := mk_world Camera.Ready false wait_armed_times_out in
  (In (Stream_waitArmed (5 # 1)%Q) (calls (prepareAcq w state0))
   <-> saving_active w = false)
  /\ outcome (prepareAcq w state0) = Thrown "stream not armed".
Proof.
  cbv zeta.
  destruct (prepareAcq_waitArmed
              (mk_world Camera.Ready false wait_armed_times_out) state0)
    as [_ H].
  destruct H as [Hiff Hfatal].
  - intros c Hc; simpl in Hc.
    repeat (destruct Hc as [<- | Hc]; [reflexivity |]); destruct Hc.
  - split; [exact Hiff |].
    apply (Hfatal "stream not armed" eq_refl eq_refl).
    intros c [<- | [<- | []]]; reflexivity.
Defined.

(** ** Construction and destruction *)

Lemma Interface_ctor_run (w : World) (s : State) :
  quiet w (map New all_objs) ->
  Interface_ctor w s =
    {| outcome := Normal tt;
       final := {| stream_active := stream_active s;
                   decompress_active := decompress_active s;
                   m_cap_list :=
                     [CapDetInfo]
                     ++ (if roi_hw_support w then [CapRoi] else [])
                     ++ [CapSync; CapSaving; CapEvent; CapBuffer;
                         CapDecompress] |};
       calls := [New Obj_det_info; New Obj_roi; Roi_hasHwRoiSupport;
                 New Obj_sync; New Obj_saving; New Obj_event;
                 New Obj_stream; Stream_getBufferCtrlObj;
                 New Obj_decompress] |}.
Proof.
  unfold all_objs; simpl map; intros Hq; split_quiet; expose; follow.
  destruct (roi_hw_support w); follow; reflexivity.
Qed.

(** C8. Construction fills the capability list in the order device-info,
    ROI, sync, saving, event, buffer, decompression, the buffer capability
    being asked from the stream; the ROI entry is there exactly when the
    detector model supports hardware ROI, which is probed once. *)
Theorem Interface_ctor_cap_list (w : World) (s : State) :
  quiet w (map New all_objs) ->
  let r := Interface_ctor w s in
  outcome r = Normal tt
  /\ m_cap_list (final r) =
       [CapDetInfo] ++ (if roi_hw_support w then [CapRoi] else [])
       ++ [CapSync; CapSaving; CapEvent; CapBuffer; CapDecompress]
  /\ (In CapRoi (m_cap_list (final r)) <-> roi_hw_support w = true)
  /\ List.length (filter is_roi_probe (calls r)) = 1%nat
  /\ (exists pre post,
        calls r = pre ++ New Obj_stream :: Stream_getBufferCtrlObj :: post).
Proof.
  intros Hq; cbv zeta; rewrite (Interface_ctor_run w s Hq); simpl.
  repeat split; try reflexivity.
  - destruct (roi_hw_support w); simpl; intuition discriminate.
  - intros ->; simpl; auto.
  - exists [New Obj_det_info; New Obj_roi; Roi_hasHwRoiSupport;
            New Obj_sync; New Obj_saving; New Obj_event],
           [New Obj_decompress]; reflexivity.
Qed.

Lemma Interface_ctor_cap_list_witness :
  m_cap_list (final (Interface_ctor
                       (mk_world Camera.Initializing false no_raise) state0))
  = [CapDetInfo; CapRoi; CapSync; CapSaving; CapEvent; CapBuffer;
     CapDecompress].
Proof.
  apply (Interface_ctor_cap_list
           (mk_world Camera.Initializing false no_raise) state0).
  intros c _; reflexivity.
Defined.

(** C9, as stated, fails: the event object created by the constructor is
    not destroyed by the destructor, and the objects that are destroyed
    are not taken in the reverse order of their creation. *)
Lemma Interface_dtor_not_reverse_of_ctor :
  let w := mk_world Camera.Ready false no_raise in
  In Obj_event (created (calls (Interface_ctor w state0)))
  /\ ~ In Obj_event (destroyed (calls (Interface_dtor state0)))
  /\ destroyed (calls (Interface_dtor state0))
     = [Obj_det_info; Obj_roi; Obj_sync; Obj_saving; Obj_stream;
        Obj_decompress]
  /\ ~ destroys_all_in_reverse w state0 state0.
Proof.
  cbv zeta; repeat split.
  - simpl; tauto.
  - simpl; intuition discriminate.
  - intros H; discriminate H.
Qed.

(** C9, amended. Destruction destroys the det-info, ROI, sync, saving,
    stream and decompression objects created at construction, each once,
    and in the order in which they were created. *)
Theorem Interface_dtor_order (w : World) (s s' : State) :
  quiet w (map New all_objs) ->
  let made := created (calls (Interface_ctor w s)) in
  let gone := destroyed (calls (Interface_dtor s')) in
  (forall o, o <> Obj_event -> In o made -> count_obj o gone = 1%nat)
  /\ filter not_event gone = filter not_event made.
Proof.
  intros Hq; cbv zeta; rewrite (Interface_ctor_run w s Hq); split.
  - intros o Ho _; destruct o; try reflexivity; contradiction Ho; reflexivity.
  - reflexivity.
Qed.

Lemma Interface_dtor_order_witness :
  let w := mk_world Camera.Ready false no_raise in
  count_obj Obj_stream (destroyed (calls (Interface_dtor state0))) = 1%nat
  /\ filter not_event (destroyed (calls (Interface_dtor state0)))
     = filter not_event (created (calls (Interface_ctor w state0))).
Proof.
  cbv zeta.
  destruct (Interface_dtor_order
              (mk_world Camera.Ready false no_raise) state0 state0)
    as [Hcount Horder].
  - intros c _; reflexivity.
  - split; [| exact Horder].
    apply Hcount; [discriminate | simpl; tauto].
Defined.

(** * Further properties *)

(** ** Reasoning about the steps of [prepareAcq] *)

Ltac by_delegation :=
  first [ apply raises_in_prepare; eassumption
        | apply raises_in_getSerieId; eassumption
        | apply raises_in_setSerieId; eassumption
        | apply raises_in_waitArmed; eassumption ].

Ltac no_delegation :=
  let He := fresh "He" in
  intros [? He]; destruct He; congruence.

(** Split on the camera status and the saving flag, keeping what is known
    of the disarm and of the clearing of the storage. *)
Ltac by_safety_sequence H :=
  let Hdis := fresh "Hdis" in
  let Hdel := fresh "Hdel" in
  destruct H as [Hdis Hdel];
  destruct (cam_status _) eqn:?; destruct (saving_active _) eqn:?;
  try (specialize (Hdis eq_refl)); try (specialize (Hdel eq_refl)).

(** ** Preparing an acquisition: when the rollback runs *)

(** X1. Once the calls before the [try] block have returned, [prepareAcq]
    stops the saving exactly when a step of the [try] block raises, and
    returns normally exactly when none does; the stream is never stopped
    without the saving having been stopped. *)
Theorem prepareAcq_rollback_iff (w : World) (s : State) :
  safety_sequence_returns w ->
  raises w Stream_resetStatistics = None ->
  let r := prepareAcq w s in
  ((exists e, delegation_raises w e) <-> In Saving_stop (calls r))
  /\ (outcome r = Normal tt <-> ~ exists e, delegation_raises w e)
  /\ (In Stream_stop (calls r) -> In Saving_stop (calls r)).
Proof.
  intros Hret Hreset; cbv zeta; expose; by_safety_sequence Hret; follow;
    (split; [| split]);
    try (split; [no_delegation | simpl; intuition discriminate]);
    try (split; [intros _; simpl; tauto | intros _; eexists; by_delegation]);
    try (split; [intros _; no_delegation | reflexivity]);
    try (split; [discriminate |
                 intros Hno; exfalso; apply Hno; eexists; by_delegation]);
    try (simpl; tauto); try (simpl; intuition discriminate).
Qed.

Lemma prepareAcq_rollback_iff_witness :
  let w := mk_world Camera.Armed true no_raise in
  outcome (prepareAcq w state0) = Normal tt
  /\ ~ In Saving_stop (calls (prepareAcq w state0)).
Proof.
  cbv zeta.
  destruct (prepareAcq_rollback_iff
              (mk_world Camera.Armed true no_raise) state0)
    as [Hstop [Hnormal _]].
  - split; intros _; reflexivity.
  - reflexivity.
  - assert (~ exists e, delegation_raises
                          (mk_world Camera.Armed true no_raise) e) as Hno
        by (intros [e He];
            destruct He as [H | _ H | _ _ H | _ _ _ _ H]; discriminate H).
    split; [apply Hnormal; exact Hno |].
    intros Hin; apply Hno, Hstop; exact Hin.
Defined.

(** ** Preparing an acquisition: failures before the [try] block *)

(** X2. When the disarm or the clearing of the detector storage raises,
    [prepareAcq] ends with that exception at once: the two activation
    flags and the capability list are as they were before the call, the
    camera-level prepare is not reached and nothing is stopped. *)
Theorem prepareAcq_safety_sequence_raises (w : World) (s : State) (e : Exn) :
  safety_sequence_raises w e ->
  let r := prepareAcq w s in
  outcome r = Thrown e
  /\ final r = s
  /\ ~ In Cam_prepareAcq (calls r)
  /\ ~ In Saving_stop (calls r)
  /\ ~ In Stream_stop (calls r).
Proof.
  intros He; cbv zeta; destruct He as [Hst Hdis | Hdis Hsav Hdel]; expose.
  - rewrite Hst; follow; destruct s; simpl;
      repeat split; try reflexivity; intuition discriminate.
  - rewrite Hsav; destruct (cam_status w);
      try (specialize (Hdis eq_refl)); follow; destruct s; simpl;
      repeat split; try reflexivity; intuition discriminate.
Qed.

Lemma prepareAcq_safety_sequence_raises_witness :
  let r := prepareAcq (mk_world Camera.Armed true disarm_fails) state0 in
  outcome r = Thrown "disarm failed"
  /\ final r = state0
  /\ ~ In Cam_prepareAcq (calls r)
  /\ ~ In Saving_stop (calls r)
  /\ ~ In Stream_stop (calls r).
Proof.
  apply (prepareAcq_safety_sequence_raises
           (mk_world Camera.Armed true disarm_fails) state0).
  apply raises_in_disarm; reflexivity.
Defined.

(** X3. When the disarm and the clearing of the storage return and the
    reset of the stream statistics raises, [prepareAcq] ends with that
    exception outside the [try] block: there is no rollback and no
    camera-level prepare, yet both activation flags have already been
    switched to the negation of the saving flag. *)
Theorem prepareAcq_resetStatistics_raises (w : World) (s : State) (e : Exn) :
  safety_sequence_returns w ->
  raises w Stream_resetStatistics = Some e ->
  let r := prepareAcq w s in
  outcome r = Thrown e
  /\ stream_active (final r) = negb (saving_active w)
  /\ decompress_active (final r) = negb (saving_active w)
  /\ ~ In Cam_prepareAcq (calls r)
  /\ ~ In Saving_stop (calls r)
  /\ ~ In Stream_stop (calls r).
Proof.
  intros Hret Hreset; cbv zeta; expose; by_safety_sequence Hret; follow;
    repeat split; try reflexivity; intuition discriminate.
Qed.

Lemma prepareAcq_resetStatistics_raises_witness :
  let r := prepareAcq (mk_world Camera.Ready false resetStatistics_fails)
                      state0 in
  outcome r = Thrown "reset statistics failed"
  /\ stream_active (final r) = true
  /\ decompress_active (final r) = true
  /\ ~ In Cam_prepareAcq (calls r)
  /\ ~ In Saving_stop (calls r)
  /\ ~ In Stream_stop (calls r).
Proof.
  apply (prepareAcq_resetStatistics_raises
           (mk_world Camera.Ready false resetStatistics_fails) state0).
  - split; intros _; reflexivity.
  - reflexivity.
Defined.

(** ** Preparing an acquisition: storage clearing and serie id *)

(** X4. [prepareAcq] clears the detector storage only when the saving is
    in use, and then does so (the disarm having returned, if any) before
    it writes the activation flags; with the saving not in use the storage
    is never cleared. *)
Theorem prepareAcq_deleteMemoryFiles (w : World) (s : State) :
  let tr := calls (prepareAcq w s) in
  (In Cam_deleteMemoryFiles tr -> saving_active w = true)
  /\ ((cam_status w = Camera.Armed -> raises w Cam_disarm = None) ->
      saving_active w = true ->
      exists pre post,
        tr = pre ++ Cam_deleteMemoryFiles :: post
        /\ ~ In Cam_deleteMemoryFiles pre
        /\ ~ In Cam_deleteMemoryFiles post
        /\ forall b, ~ In (Stream_setActive b) pre
                     /\ ~ In (Decompress_setActive b) pre).
Proof.
  cbv zeta; split.
  - expose; destruct (cam_status w), (saving_active w); follow; simpl;
      intuition discriminate.
  - intros Hdis Hsav; expose; rewrite Hsav.
    destruct (cam_status w); try (specialize (Hdis eq_refl)); follow;
      match goal with
      | |- exists pre post,
             Cam_disarm :: Usleep ?u :: Cam_deleteMemoryFiles :: ?l = _ /\ _ =>
          exists [Cam_disarm; Usleep u], l
      | |- exists pre post, Cam_deleteMemoryFiles :: ?l = _ /\ _ =>
          exists [], l
      end;
      (split; [reflexivity |]); simpl;
      repeat split; intuition discriminate.
Qed.

Lemma prepareAcq_deleteMemoryFiles_witness :
  exists pre post,
    calls (prepareAcq (mk_world Camera.Armed true no_raise) state0)
    = pre ++ Cam_deleteMemoryFiles :: post
    /\ ~ In Cam_deleteMemoryFiles pre
    /\ ~ In Cam_deleteMemoryFiles post
    /\ forall b, ~ In (Stream_setActive b) pre
                 /\ ~ In (Decompress_setActive b) pre.
Proof.
  apply (prepareAcq_deleteMemoryFiles
           (mk_world Camera.Armed true no_raise) state0);
    [intros _ |]; reflexivity.
Defined.

(** X5. The serie id that [prepareAcq] hands to the saving is the one the
    camera reports, asked after the camera-level prepare; and it is handed
    over whether or not the saving is in use, as soon as the calls before
    it return. *)
Theorem prepareAcq_serie_id (w : World) (s : State) :
  let tr := calls (prepareAcq w s) in
  (forall id, In (Saving_setSerieId id) tr ->
   id = cam_serie_id w
   /\ exists pre post,
        tr = pre ++ Cam_prepareAcq :: Cam_getSerieId
                 :: Saving_setSerieId id :: post)
  /\ (safety_sequence_returns w ->
      quiet w [Stream_resetStatistics; Cam_prepareAcq; Cam_getSerieId] ->
      In (Saving_setSerieId (cam_serie_id w)) tr).
Proof.
  cbv zeta; split.
  - intros id; expose; destruct (cam_status w), (saving_active w); follow;
      simpl; intros Hin;
      repeat (destruct Hin as [Hin | Hin];
              [try discriminate Hin; injection Hin as <- |]);
      try contradiction; (split; [reflexivity |]);
      match goal with
      | |- exists pre post, ?l = _ =>
          let rec cut pre l :=
            lazymatch l with
            | Cam_prepareAcq :: Cam_getSerieId :: Saving_setSerieId _ :: ?l' =>
                exists (rev pre), l'
            | ?c :: ?l' => cut (c :: pre) l'
            end in
          cut (@nil Call) l
      end; reflexivity.
  - intros Hret Hq; split_quiet; expose; by_safety_sequence Hret; follow;
      simpl; tauto.
Qed.

Lemma prepareAcq_serie_id_witness :
  In (Saving_setSerieId 7)
     (calls (prepareAcq (mk_world Camera.Ready false no_raise) state0)).
Proof.
  apply (prepareAcq_serie_id (mk_world Camera.Ready false no_raise) state0).
  - split; intros _; reflexivity.
  - intros c _; reflexivity.
Defined.

(** X6. [prepareAcq] only prepares: it starts neither the saving, nor the
    stream, nor the camera, it does not stop the camera, and it creates or
    destroys no sub-object; nor does it touch the capability list. *)
Theorem prepareAcq_only_prepares (w : World) (s : State) :
  let r := prepareAcq w s in
  (forall c, In c (calls r) ->
   is_data_start c = false /\ c <> Cam_startAcq /\ c <> Cam_stopAcq
   /\ created [c] = [] /\ destroyed [c] = [])
  /\ m_cap_list (final r) = m_cap_list s.
Proof.
  cbv zeta; split.
  - intros c; expose; destruct (cam_status w), (saving_active w); follow;
      simpl; intros Hin;
      repeat (destruct Hin as [<- | Hin];
              [repeat split; try reflexivity; discriminate |]);
      contradiction.
  - expose; destruct (cam_status w), (saving_active w); follow; reflexivity.
Qed.

(** ** Starting an acquisition: a data path that does not start *)

(** X7. On the first call of a sequence, when the start of the data path
    in use (the saving if active, else the stream) raises, [startAcq] ends
    with that exception and the camera is not started. *)
Theorem startAcq_data_start_raises (w : World) (s : State) (e : Exn) :
  first_call w ->
  raises w (data_start w) = Some e ->
  let r := startAcq w s in
  outcome r = Thrown e
  /\ calls r = [data_start w]
  /\ ~ In Cam_startAcq (calls r).
Proof.
  intros Hfc He; apply first_call_gate in Hfc; cbv zeta.
  unfold data_start in *; expose; rewrite Hfc.
  destruct (saving_active w); follow; repeat split; intuition discriminate.
Qed.

Lemma startAcq_data_start_raises_witness :
  let r := startAcq (mk_world Camera.Ready true saving_start_fails) state0 in
  outcome r = Thrown "saving start failed"
  /\ calls r = [Saving_start]
  /\ ~ In Cam_startAcq (calls r).
Proof.
  apply (startAcq_data_start_raises
           (mk_world Camera.Ready true saving_start_fails) state0).
  - right; reflexivity.
  - reflexivity.
Defined.

(** ** The life of an interface *)

Lemma run_member_keeps_state (w : World) (m : Member) (s : State) :
  is_prepareAcq m = false -> final (run_member w m s) = s.
Proof.
  destruct m; intros Hm; try discriminate Hm; unfold run_member; expose.
  - follow; reflexivity.
  - destruct (negb (TrigMode_eqb (cam_trig_mode w) IntTrigMult)
              || (cam_nb_triggered_frames w =? 0));
      [destruct (saving_active w) |]; follow; reflexivity.
  - follow; reflexivity.
Qed.

Lemma run_member_cap_list (w : World) (m : Member) (s : State) :
  m_cap_list (final (run_member w m s)) = m_cap_list s.
Proof.
  destruct (is_prepareAcq m) eqn:Hm.
  - destruct m; try discriminate Hm; unfold run_member; expose.
    destruct (cam_status w), (saving_active w); follow; reflexivity.
  - rewrite run_member_keeps_state by exact Hm; reflexivity.
Qed.

Lemma run_member_flags_agree (w : World) (m : Member) (s : State) :
  stream_active s = decompress_active s ->
  stream_active (final (run_member w m s))
  = decompress_active (final (run_member w m s)).
Proof.
  intros Hs; destruct (is_prepareAcq m) eqn:Hm.
  - destruct m; try discriminate Hm; unfold run_member; expose.
    destruct (cam_status w), (saving_active w); follow; auto.
  - rewrite run_member_keeps_state by exact Hm; exact Hs.
Qed.

(** X8. The capability list is fixed at construction: whatever succession
    of [reset], [prepareAcq], [startAcq] and [stopAcq] calls is made, in
    whatever state of the collaborators and whether the calls return or
    raise, [getCapList] answers afterwards what it answered before. *)
Theorem getCapList_stable (l : list (World * Member)) (s : State) :
  outcome (getCapList (state_after l s)) = outcome (getCapList s).
Proof.
  revert s; induction l as [| [w m] l IH]; intros s; cbn [state_after].
  - reflexivity.
  - rewrite IH; unfold getCapList; cbn [outcome].
    rewrite run_member_cap_list; reflexivity.
Qed.

(** X9. Only [prepareAcq] writes the activation flags: a succession of
    [reset], [startAcq] and [stopAcq] calls leaves the state as it was;
    and through any succession of member calls, flags of the stream and of
    the decompression that agree keep agreeing. *)
Theorem activation_flags_through_life (l : list (World * Member)) (s : State) :
  (forallb (fun wm => negb (is_prepareAcq (snd wm))) l = true ->
   state_after l s = s)
  /\ (stream_active s = decompress_active s ->
      stream_active (state_after l s) = decompress_active (state_after l s)).
Proof.
  split; revert s; induction l as [| [w m] l IH]; intros s; simpl; auto.
  - intros Hl; apply andb_true_iff in Hl; destruct Hl as [Hm Hl].
    apply negb_true_iff in Hm.
    rewrite run_member_keeps_state by exact Hm; apply IH; exact Hl.
  - intros Hs; apply IH, run_member_flags_agree; exact Hs.
Qed.

Lemma activation_flags_through_life_witness :
  let w := mk_world Camera.Armed true no_raise in
  let l := [(w, Member_reset SoftReset); (w, Member_startAcq);
            (w, Member_stopAcq)] in
  state_after l state0 = state0
  /\ stream_active (state_after ((w, Member_prepareAcq) :: l) state0)
     = decompress_active (state_after ((w, Member_prepareAcq) :: l) state0).
Proof.
  cbv zeta; split.
  - apply (activation_flags_through_life
             [(mk_world Camera.Armed true no_raise, Member_reset SoftReset);
              (mk_world Camera.Armed true no_raise, Member_startAcq);
              (mk_world Camera.Armed true no_raise, Member_stopAcq)] state0).
    reflexivity.
  - apply (activation_flags_through_life
             [(mk_world Camera.Armed true no_raise, Member_prepareAcq);
              (mk_world Camera.Armed true no_raise, Member_reset SoftReset);
              (mk_world Camera.Armed true no_raise, Member_startAcq);
              (mk_world Camera.Armed true no_raise, Member_stopAcq)] state0).
    reflexivity.
Defined.

(** X10. The data path that [startAcq] starts is the one [prepareAcq]
    activated: with the saving flag unchanged in between, the stream is
    started only if the stream and decompression flags left by
    [prepareAcq] are set, and the saving only if they are cleared. *)
Theorem startAcq_after_prepareAcq (w w' : World) (s : State) :
  safety_sequence_returns w ->
  saving_active w' = saving_active w ->
  let s' := final (prepareAcq w s) in
  (In Stream_start (calls (startAcq w' s')) ->
   stream_active s' = true /\ decompress_active s' = true)
  /\ (In Saving_start (calls (startAcq w' s')) ->
      stream_active s' = false /\ decompress_active s' = false).
Proof.
  intros Hret Hsav; cbv zeta; expose; rewrite Hsav.
  destruct (negb (TrigMode_eqb (cam_trig_mode w') IntTrigMult)
            || (cam_nb_triggered_frames w' =? 0));
    by_safety_sequence Hret; follow; simpl;
    split; intros Hin; try (split; reflexivity); intuition discriminate.
Qed.

Lemma startAcq_after_prepareAcq_witness :
  let w := mk_world Camera.Ready false no_raise in
  let s' := final (prepareAcq w state0) in
  stream_active s' = true /\ decompress_active s' = true.
Proof.
  cbv zeta.
  destruct (startAcq_after_prepareAcq
              (mk_world Camera.Ready false no_raise)
              (mk_world Camera.Ready false no_raise) state0) as [Hstream _].
  - split; intros _; reflexivity.
  - reflexivity.
  - apply Hstream; simpl; tauto.
Defined.

(** ** Composite status, read backwards *)

(** X11. [getStatus] reports a fault in two cases only: the camera is in
    fault, or the camera is ready with no multi-trigger sequence in
    progress and the active saving is neither idle nor running.  A saving
    error is thus not reported while the saving is inactive or a
    multi-trigger sequence is in progress. *)
Theorem getStatus_Fault_iff (w : World) :
  getStatus w = HwInterface.Fault <->
  cam_status w = Camera.Fault
  \/ (cam_status w = Camera.Ready
      /\ multi_trigger_in_progress w = false
      /\ saving_active w = true
      /\ saving_status w <> SavingCtrlObj.IDLE
      /\ saving_status w <> SavingCtrlObj.RUNNING).
Proof.
  unfold getStatus, multi_trigger_in_progress.
  destruct (cam_status w), (cam_trig_mode w), (saving_active w),
    (saving_status w), (stream_running w); simpl;
    try destruct (cam_nb_triggered_frames w =? cam_nb_frames w); simpl;
    split; intros H; try discriminate H; try (left; reflexivity);
    try (right; repeat split; discriminate);
    destruct H as [H | (H1 & H2 & H3 & H4 & H5)]; congruence.
Qed.

(** X12. [getStatus] reports a readout exactly when the camera is ready,
    no multi-trigger sequence is in progress, and the data path in use is
    busy: the saving running if the saving is active, the stream running
    if it is not. *)
Theorem getStatus_Readout_iff (w : World) :
  getStatus w = HwInterface.Readout <->
  cam_status w = Camera.Ready
  /\ multi_trigger_in_progress w = false
  /\ (if saving_active w
      then saving_status w = SavingCtrlObj.RUNNING
      else stream_running w = true).
Proof.
  unfold getStatus, multi_trigger_in_progress.
  destruct (cam_status w), (cam_trig_mode w), (saving_active w),
    (saving_status w), (stream_running w); simpl;
    try destruct (cam_nb_triggered_frames w =? cam_nb_frames w); simpl;
    split; intros H; try discriminate H; try (repeat split; reflexivity);
    destruct H as (H1 & H2 & H3); congruence.
Qed.

(** X13. [getStatus] reports an exposure exactly when the camera is
    exposing and a configuration exactly when the camera is initializing;
    the saving, the stream and the trigger mode play no part in either. *)
Theorem getStatus_camera_only (w : World) :
  (getStatus w = HwInterface.Exposure <-> cam_status w = Camera.Exposure)
  /\ (getStatus w = HwInterface.Config <->
      cam_status w = Camera.Initializing).
Proof.
  unfold getStatus.
  destruct (cam_status w), (cam_trig_mode w), (saving_active w),
    (saving_status w), (stream_running w); simpl;
    try destruct (cam_nb_triggered_frames w =? cam_nb_frames w); simpl;
    split; split; intros H; try discriminate H; reflexivity.
Qed.

(** X14. [getStatus] looks at the saving status only while the saving is
    active and at the stream only while it is not: two states of the
    collaborators that agree on the camera status, the trigger mode, the
    frame counts, the saving flag and the status of the data path in use
    give the same composite status. *)
Theorem getStatus_reads_active_path (w1 w2 : World) :
  cam_status w1 = cam_status w2 ->
  cam_trig_mode w1 = cam_trig_mode w2 ->
  cam_nb_frames w1 = cam_nb_frames w2 ->
  cam_nb_triggered_frames w1 = cam_nb_triggered_frames w2 ->
  saving_active w1 = saving_active w2 ->
  (if saving_active w1
   then saving_status w1 = saving_status w2
   else stream_running w1 = stream_running w2) ->
  getStatus w1 = getStatus w2.
Proof.
  unfold getStatus; intros -> -> -> -> Hsav Hpath; rewrite Hsav in *.
  destruct (saving_active w2); rewrite Hpath; reflexivity.
Qed.

Lemma getStatus_reads_active_path_witness :
  getStatus (mk_world Camera.Ready true no_raise)
  = getStatus {| cam_status := Camera.Ready; cam_trig_mode := IntTrig;
                 cam_nb_frames := 1; cam_nb_triggered_frames := 0;
                 cam_serie_id := 8; saving_active := true;
                 saving_status := SavingCtrlObj.IDLE;
                 stream_running := true; roi_hw_support := false;
                 raises := cam_stop_fails |}.
Proof.
  apply getStatus_reads_active_path; reflexivity.
Defined.

(** ** Construction: all or nothing *)

(** X15. The constructor returns exactly when none of the seven sub-object
    constructors raises.  When it ends with an exception, this is the
    exception of the sub-object constructor called last, the constructors
    called before it had returned, and none of the objects already created
    is deleted. *)
Theorem Interface_ctor_all_or_nothing (w : World) (s : State) :
  let r := Interface_ctor w s in
  (outcome r = Normal tt <-> quiet w (map New all_objs))
  /\ (forall e, outcome r = Thrown e ->
      exists o pre,
        calls r = pre ++ [New o]
        /\ raises w (New o) = Some e
        /\ (forall o', In (New o') pre -> raises w (New o') = None)
        /\ existsb is_delete (calls r) = false).
Proof.
  cbv zeta; unfold all_objs; simpl map; expose; follow;
    try destruct (roi_hw_support w); follow; split;
    try (split; [discriminate | intros Hq; split_quiet; congruence]);
    try (split; [intros _ c Hc; simpl in Hc;
                 repeat (destruct Hc as [<- | Hc]; [assumption |]);
                 contradiction
                | reflexivity]);
    try (intros ? H; discriminate H);
    intros e' H; injection H as <-;
    match goal with
    | |- exists o pre, ?l = _ /\ _ =>
        match eval cbv [rev app removelast] in (rev l) with
        | New ?o :: _ => exists o, (removelast l)
        end
    end;
    (split; [reflexivity |]); (split; [assumption |]);
    (split; [| reflexivity]);
    intros o' Hin; simpl in Hin;
    repeat (destruct Hin as [Hin | Hin];
            [try discriminate Hin; injection Hin as <-; assumption |]);
    contradiction.
Qed.

Lemma Interface_ctor_all_or_nothing_witness :
  let r := Interface_ctor (mk_world Camera.Initializing false
                                    stream_ctor_fails) state0 in
  exists o pre,
    calls r = pre ++ [New o]
    /\ raises (mk_world Camera.Initializing false stream_ctor_fails) (New o)
       = Some "cannot map the stream buffer"
    /\ (forall o', In (New o') pre ->
        raises (mk_world Camera.Initializing false stream_ctor_fails)
               (New o') = None)
    /\ existsb is_delete (calls r) = false.
Proof.
  apply (Interface_ctor_all_or_nothing
           (mk_world Camera.Initializing false stream_ctor_fails) state0).
  reflexivity.
Defined.

(** ** The ROI object and the capability list *)

(** X16. The ROI control object is created on every detector model, so
    that [hasHwRoiSupport] can always be asked; asking makes one call on
    the ROI object and changes nothing.  After construction the list that
    [getCapList] gives holds the ROI capability exactly when
    [hasHwRoiSupport] answers true. *)
Theorem hasHwRoiSupport_agrees_with_getCapList (w : World) (s : State) :
  quiet w (map New all_objs) ->
  let s' := final (Interface_ctor w s) in
  In Obj_roi (created (calls (Interface_ctor w s)))
  /\ final (hasHwRoiSupport w s') = s'
  /\ calls (hasHwRoiSupport w s') = [Roi_hasHwRoiSupport]
  /\ (forall caps, outcome (getCapList s') = Normal caps ->
      (In CapRoi caps <-> outcome (hasHwRoiSupport w s') = Normal true)).
Proof.
  intros Hq; cbv zeta; rewrite (Interface_ctor_run w s Hq).
  unfold hasHwRoiSupport, getCapList; expose; simpl.
  split; [tauto |]; split; [reflexivity |]; split; [reflexivity |].
  intros caps Hcaps; injection Hcaps as <-.
  destruct (roi_hw_support w); simpl; split; intros H;
    try reflexivity; try discriminate H; intuition discriminate.
Qed.

Lemma hasHwRoiSupport_agrees_with_getCapList_witness :
  let w := mk_world Camera.Ready false no_raise in
  In Obj_roi (created (calls (Interface_ctor w state0)))
  /\ outcome (hasHwRoiSupport w (final (Interface_ctor w state0)))
     = Normal true.
Proof.
  cbv zeta.
  destruct (hasHwRoiSupport_agrees_with_getCapList
              (mk_world Camera.Ready false no_raise) state0)
    as (Hroi & _ & _ & Hcaps).
  - intros c _; reflexivity.
  - split; [exact Hroi |].
    apply (Hcaps _ eq_refl); simpl; tauto.
Defined.

(** ** What a normal return guarantees *)

(** X17. When [prepareAcq] returns normally, the camera-level prepare has
    been called and has returned, the saving holds the camera's serie id,
    both activation flags are the negation of the saving flag, nothing has
    been stopped, and on the live-stream path the stream has reported
    armed within the timeout. *)
Theorem prepareAcq_normal_return (w : World) (s : State) :
  let r := prepareAcq w s in
  outcome r = Normal tt ->
  (In Cam_prepareAcq (calls r) /\ raises w Cam_prepareAcq = None)
  /\ In (Saving_setSerieId (cam_serie_id w)) (calls r)
  /\ stream_active (final r) = negb (saving_active w)
  /\ decompress_active (final r) = negb (saving_active w)
  /\ ~ In Saving_stop (calls r)
  /\ ~ In Stream_stop (calls r)
  /\ (saving_active w = false ->
      In (Stream_waitArmed stream_armed_timeout) (calls r)
      /\ raises w (Stream_waitArmed stream_armed_timeout) = None).
Proof.
  cbv zeta; expose; destruct (cam_status w), (saving_active w); follow;
    intros H; try discriminate H;
    repeat split; try reflexivity; try assumption; try discriminate;
    simpl; intuition discriminate.
Qed.

Lemma prepareAcq_normal_return_witness :
  let w := mk_world Camera.Ready false no_raise in
  In (Stream_waitArmed stream_armed_timeout) (calls (prepareAcq w state0))
  /\ stream_active (final (prepareAcq w state0)) = true.
Proof.
  cbv zeta.
  destruct (prepareAcq_normal_return
              (mk_world Camera.Ready false no_raise) state0 eq_refl)
    as (_ & _ & Hflag & _ & _ & _ & Hwait).
  split; [apply Hwait; reflexivity | exact Hflag].
Defined.

(** X18. When [startAcq] returns normally, the camera has been started,
    as the last call; and on the first call of a sequence the data path in
    use had been started before it, and had returned. *)
Theorem startAcq_normal_return (w : World) (s : State) :
  let r := startAcq w s in
  outcome r = Normal tt ->
  raises w Cam_startAcq = None
  /\ (first_call w ->
      calls r = [data_start w; Cam_startAcq]
      /\ raises w (data_start w) = None)
  /\ (~ first_call w -> calls r = [Cam_startAcq]).
Proof.
  pose proof (first_call_gate w) as Hgate.
  cbv zeta; unfold data_start; expose.
  destruct (negb (TrigMode_eqb (cam_trig_mode w) IntTrigMult)
            || (cam_nb_triggered_frames w =? 0)).
  - destruct (saving_active w); follow; intros H; try discriminate H;
      repeat split; try reflexivity; try assumption;
      intros Hno; contradiction Hno; apply Hgate; reflexivity.
  - follow; intros H; try discriminate H;
      (split; [reflexivity |]); split; [| reflexivity].
    intros Hfc; apply Hgate in Hfc; discriminate Hfc.
Qed.

Lemma startAcq_normal_return_witness :
  calls (startAcq (mk_world Camera.Ready false no_raise) state0)
  = [Stream_start; Cam_startAcq].
Proof.
  apply (startAcq_normal_return
           (mk_world Camera.Ready false no_raise) state0 eq_refl).
  right; reflexivity.
Defined.
